(** * BenBot backend relay: a shallow embedding of [main.py]

    The service has two routes.  [GET /health] answers a constant.
    [POST /chat] reads the API key from the process environment, picks the
    most recent user message of the request, builds a fixed four-message
    payload, posts it to the upstream chat-completion API and maps the
    upstream answer (or failure) to a reply.

    The embedding keeps the handler's effects explicit: the environment and
    the upstream server are arguments of [chat], the outbound HTTP calls are
    returned as a log next to the handler's outcome, and Python exceptions
    are values of an error monad. *)

From Stdlib Require Import Bool Ascii String List ZArith Lia DecimalString.
Import ListNotations.

Local Open Scope list_scope.
Local Open Scope string_scope.

Set Warnings "-register-all".

(** ** Python strings

    A Python [str] is represented by the bytes of its UTF-8 encoding, which
    is also what a Rocq string literal of this file holds.  A lone
    surrogate, which a JSON escape can put into a parsed text, is held as
    the three bytes that [surrogatepass] writes for it. *)

Module PyStr.

Definition chr (n : nat) : string := String (ascii_of_nat n) EmptyString.

Definition utf8_2 (a b : nat) : string := chr a ++ chr b.
Definition utf8_3 (a b c : nat) : string := chr a ++ chr b ++ chr c.

(** The characters for which [str.isspace] holds, each as its UTF-8
    encoding: U+0009..U+000D, U+001C..U+0020, U+0085, U+00A0, U+1680,
    U+2000..U+200A, U+2028, U+2029, U+202F, U+205F and U+3000. *)
Definition whitespace : list string :=
  (map chr [9; 10; 11; 12; 13; 28; 29; 30; 31; 32]
   ++ [utf8_2 194 133; utf8_2 194 160; utf8_3 225 154 128]
   ++ map (utf8_3 226 128) [128; 129; 130; 131; 132; 133; 134; 135; 136; 137; 138]
   ++ [utf8_3 226 128 168; utf8_3 226 128 169; utf8_3 226 128 175;
       utf8_3 226 129 159; utf8_3 227 128 128])%list.

(** [drop_prefix w s] is [Some r] when [s = w ++ r]. *)
Fixpoint drop_prefix (w s : string) : option string :=
  match w, s with
  | EmptyString, _ => Some s
  | String a w', String b s' =>
      if Ascii.eqb a b then drop_prefix w' s' else None
  | String _ _, EmptyString => None
  end.

(** One step of stripping: remove one leading token of [toks]. *)
Fixpoint lstrip1 (toks : list string) (s : string) : option string :=
  match toks with
  | [] => None
  | w :: toks' =>
      match drop_prefix w s with
      | Some r => Some r
      | None => lstrip1 toks' s
      end
  end.

Fixpoint lstrip_loop (toks : list string) (fuel : nat) (s : string) : string :=
  match fuel with
  | O => s
  | S fuel' =>
      match lstrip1 toks s with
      | Some r => lstrip_loop toks fuel' r
      | None => s
      end
  end.

Definition lstrip_with (toks : list string) (s : string) : string :=
  lstrip_loop toks (String.length s) s.

Fixpoint rev (s : string) : string :=
  match s with
  | EmptyString => EmptyString
  | String c s' => rev s' ++ String c EmptyString
  end.

Definition lstrip (s : string) : string := lstrip_with whitespace s.

Definition rstrip (s : string) : string :=
  rev (lstrip_with (map rev whitespace) (rev s)).

(** [s.strip()]: leading whitespace goes first, then trailing whitespace
    of what is left. *)
Definition strip (s : string) : string := rstrip (lstrip s).

(** [s.lower()] on the ASCII letters.  The handler only searches the
    lowered text for an ASCII pattern, and no character outside ASCII
    lowers to a run of that pattern, so the other case mappings are not
    needed. *)
Definition lower_char (c : ascii) : ascii :=
  let n := nat_of_ascii c in
  if (65 <=? n)%nat && (n <=? 90)%nat then ascii_of_nat (n + 32) else c.

Fixpoint lower (s : string) : string :=
  match s with
  | EmptyString => EmptyString
  | String c s' => String (lower_char c) (lower s')
  end.

Definition startswith (w s : string) : bool :=
  match drop_prefix w s with Some _ => true | None => false end.

(** [needle in hay]. *)
Fixpoint contains (needle hay : string) : bool :=
  startswith needle hay ||
  match hay with
  | EmptyString => false
  | String _ hay' => contains needle hay'
  end.

Fixpoint join (sep : string) (l : list string) : string :=
  match l with
  | [] => EmptyString
  | [x] => x
  | x :: l' => x ++ sep ++ join sep l'
  end.

Definition nl : string := chr 10.
Definition dquote : string := chr 34.

(** A triple-quoted literal, given line by line. *)
Definition text (ls : list string) : string := join nl ls.

Fixpoint mem (c : ascii) (s : string) : bool :=
  match s with
  | EmptyString => false
  | String d s' => Ascii.eqb c d || mem c s'
  end.

Definition hex_digit (n : nat) : string :=
  String.substring n 1 "0123456789abcdef".

(** [n] as [width] lower-case hexadecimal digits. *)
Fixpoint hex (width : nat) (n : N) : string :=
  match width with
  | O => EmptyString
  | S w => hex w (n / 16)%N ++ hex_digit (N.to_nat (n mod 16)%N)
  end.

Definition cont (b : ascii) : N := (N_of_ascii b mod 64)%N.

(** The characters of a string, each as its code point and its bytes. *)
Fixpoint chars (s : string) : list (N * string) :=
  match s with
  | EmptyString => []
  | String a s1 =>
      let n := N_of_ascii a in
      if (n <? 192)%N then (n, String a EmptyString) :: chars s1
      else
        match s1 with
        | EmptyString => [(n, String a EmptyString)]
        | String b s2 =>
            if (n <? 224)%N
            then ((n mod 32) * 64 + cont b,
                  String a (String b EmptyString))%N :: chars s2
            else
              match s2 with
              | EmptyString => [(n, String a (String b EmptyString))]
              | String c s3 =>
                  if (n <? 240)%N
                  then (((n mod 16) * 64 + cont b) * 64 + cont c,
                        String a (String b (String c EmptyString)))%N
                       :: chars s3
                  else
                    match s3 with
                    | EmptyString =>
                        [(n, String a (String b (String c EmptyString)))]
                    | String d s4 =>
                        ((((n mod 8) * 64 + cont b) * 64 + cont c) * 64 + cont d,
                         String a (String b (String c (String d EmptyString))))%N
                        :: chars s4
                    end
              end
        end
  end.

Definition is_surrogate (c : N) : bool := ((55296 <=? c) && (c <=? 57343))%N.

(** [s.encode("utf-8")] succeeds: the text has no lone surrogate. *)
Definition encodable (s : string) : bool :=
  forallb (fun p => negb (is_surrogate (fst p))) (chars s).

(** [repr] of a string: single quotes unless the text has a single quote
    and no double quote; the quote, the backslash and the ASCII control
    characters are escaped.  A character outside ASCII is kept when
    [printable] holds of its code point and escaped when not, as [\xhh],
    [\uhhhh] or [\Uhhhhhhhh] by its size; [printable] stands for the
    interpreter's [str.isprintable]. *)
Definition repr_char (q c : ascii) : string :=
  let n := nat_of_ascii c in
  if Ascii.eqb c q || Ascii.eqb c "\"%char then String "\"%char (String c EmptyString)
  else if (n =? 9)%nat then "\t"
  else if (n =? 10)%nat then "\n"
  else if (n =? 13)%nat then "\r"
  else if (n <? 32)%nat || (n =? 127)%nat
       then "\x" ++ hex_digit (n / 16) ++ hex_digit (n mod 16)
  else String c EmptyString.

Definition repr_wide (printable : N -> bool) (c : N) (bytes : string) : string :=
  if printable c then bytes
  else if (c <? 256)%N then "\x" ++ hex 2 c
  else if (c <? 65536)%N then "\u" ++ hex 4 c
  else "\U" ++ hex 8 c.

Definition repr_item (printable : N -> bool) (q : ascii) (p : N * string)
  : string :=
  match snd p with
  | String a EmptyString =>
      if (fst p <? 128)%N then repr_char q a else repr_wide printable (fst p) (snd p)
  | bytes => repr_wide printable (fst p) bytes
  end.

Fixpoint repr_body (printable : N -> bool) (q : ascii) (cs : list (N * string))
  : string :=
  match cs with
  | [] => EmptyString
  | p :: cs' => repr_item printable q p ++ repr_body printable q cs'
  end.

Definition repr (printable : N -> bool) (s : string) : string :=
  let q := if mem "'"%char s && negb (mem "034"%char s)
           then "034"%char else "'"%char in
  String q (repr_body printable q (chars s) ++ String q EmptyString).

(** The first character of a non-empty string, by the length its leading
    byte announces. *)
Definition first_char (s : string) : string :=
  match s with
  | EmptyString => EmptyString
  | String c _ =>
      let n := nat_of_ascii c in
      String.substring 0
        (if (n <? 192)%nat then 1 else if (n <? 224)%nat then 2
         else if (n <? 240)%nat then 3 else 4) s
  end.

End PyStr.

(** ** Python values

    What [r.json()] can return, and what the handler returns: [None],
    booleans, integers, floats, strings, lists and dictionaries with string
    keys.  A dictionary keeps its items in insertion order; [dict_get]
    takes the first item with the key.  A float is carried by the two
    things the handler can observe of it: whether it is non-zero and its
    [str] text; the floats that are not finite are those whose text is
    [inf], [-inf] or [nan]. *)

Inductive pyval : Type :=
| PNone
| PBool (b : bool)
| PInt (z : Z)
| PFloat (nonzero : bool) (text : string)
| PStr (s : string)
| PList (l : list pyval)
| PDict (d : list (string * pyval)).

(** The exceptions the handler's expressions can raise, and the one it
    raises itself. *)
Inductive exn : Type :=
| AttributeError
| KeyError
| IndexError
| TypeError
| HTTPException (status_code : Z) (detail : string).

Inductive result (A : Type) : Type :=
| Ok (a : A)
| Raise (e : exn).

Arguments Ok {A} a.
Arguments Raise {A} e.

Definition bind {A B : Type} (m : result A) (k : A -> result B) : result B :=
  match m with
  | Ok a => k a
  | Raise e => Raise e
  end.

Notation "x <- m ;; k" := (bind m (fun x => k))
  (at level 61, m at next level, right associativity).

Module Py.

(** [bool(v)]. *)
Definition truthy (v : pyval) : bool :=
  match v with
  | PNone => false
  | PBool b => b
  | PInt z => negb (Z.eqb z 0)
  | PFloat nonzero _ => nonzero
  | PStr s => negb (String.eqb s "")
  | PList l => match l with [] => false | _ :: _ => true end
  | PDict d => match d with [] => false | _ :: _ => true end
  end.

(** [a or b], for an already evaluated [a]. *)
Definition or_ (a b : pyval) : pyval := if truthy a then a else b.

Fixpoint dict_get (d : list (string * pyval)) (k : string) : option pyval :=
  match d with
  | [] => None
  | (k', v) :: d' => if String.eqb k' k then Some v else dict_get d' k
  end.

(** [v.get(k)]: only dictionaries have the method. *)
Definition get (v : pyval) (k : string) : result pyval :=
  match v with
  | PDict d => Ok (match dict_get d k with Some x => x | None => PNone end)
  | _ => Raise AttributeError
  end.

(** [v[0]]. *)
Definition getitem0 (v : pyval) : result pyval :=
  match v with
  | PList [] => Raise IndexError
  | PList (x :: _) => Ok x
  | PStr s => if String.eqb s "" then Raise IndexError
              else Ok (PStr (PyStr.first_char s))
  | PDict _ => Raise KeyError
  | PNone | PBool _ | PInt _ | PFloat _ _ => Raise TypeError
  end.

Fixpoint repr (printable : N -> bool) (v : pyval) : string :=
  match v with
  | PNone => "None"
  | PBool true => "True"
  | PBool false => "False"
  | PInt z => NilZero.string_of_int (Z.to_int z)
  | PFloat _ text => text
  | PStr s => PyStr.repr printable s
  | PList l => "[" ++ PyStr.join ", " (map (repr printable) l) ++ "]"
  | PDict d =>
      "{" ++ PyStr.join ", "
               (map (fun kv => PyStr.repr printable (fst kv) ++ ": "
                               ++ repr printable (snd kv)) d)
          ++ "}"
  end.

(** [str(v)], which is also what an f-string field prints. *)
Definition str (printable : N -> bool) (v : pyval) : string :=
  match v with
  | PStr s => s
  | _ => repr printable v
  end.

End Py.

(** ** The application *)

Definition DEEPSEEK_API_URL : string :=
  "https://api.deepseek.com/v1/chat/completions".

Definition ALLOWED_ORIGINS : list string :=
  ["https://ben-gzf.github.io"; "http://localhost:3000"].

(** The arguments [add_middleware] passes to the cross-origin middleware. *)
Record CORSConfig : Type := {
  allow_origins : list string;
  allow_credentials : bool;
  allow_methods : list string;
  allow_headers : list string
}.

Definition cors : CORSConfig := {|
  allow_origins := ALLOWED_ORIGINS;
  allow_credentials := false;
  allow_methods := ["POST"; "GET"; "OPTIONS"];
  allow_headers := ["*"]
|}.

Definition mem_str (x : string) (l : list string) : bool :=
  existsb (String.eqb x) l.

(** Modelled from the spec: the cross-origin middleware itself, a class of
    the web framework whose code is not under src/.  An origin is let
    through when the allow-list has it as an exact string, or has the
    wildcard entry. *)
Definition origin_allowed (c : CORSConfig) (origin : string) : bool :=
  mem_str "*" (allow_origins c) || mem_str origin (allow_origins c).

(** Modelled from the spec: the cross-origin headers put on the response
    to a request that names [origin]; none for an origin that is not let
    through, and the credentials header only when credentials are on. *)
Definition cors_headers (c : CORSConfig) (origin : string)
  : list (string * string) :=
  if origin_allowed c origin then
    ("Access-Control-Allow-Origin", origin)
    :: (if allow_credentials c
        then [("Access-Control-Allow-Credentials", "true")] else [])
  else [].

(** Modelled from the spec: the methods a cross-origin call may use, the
    wildcard entry standing for all. *)
Definition method_allowed (c : CORSConfig) (method : string) : bool :=
  mem_str "*" (allow_methods c) || mem_str method (allow_methods c).

(** Modelled from the spec: the request headers a cross-origin call may
    carry, the wildcard entry standing for all. *)
Definition header_allowed (c : CORSConfig) (header : string) : bool :=
  mem_str "*" (allow_headers c) || mem_str header (allow_headers c).

Record Msg : Type := { role : string; content : string }.

Record ChatReq : Type := { messages : list Msg; kb : option string }.

(** [GET /health]. *)
Definition health (_ : unit) : result pyval :=
  Ok (PDict [("ok", PBool true)]).

(** The process environment, as [os.getenv] reads it. *)
Definition Environ : Type := string -> option string.

(** One [client.post(url, headers=..., json=...)] of a client built with
    [timeout]. *)
Record HttpCall : Type := {
  call_url : string;
  call_headers : list (string * string);
  call_json : pyval;
  call_timeout : Z
}.

(** What the upstream call comes to: [client.post] raises [e] (no
    connection, timeout), or a response arrives, whose body [r.json()]
    either parses or rejects with [e].  In both failures [e] is the text
    [str(e)] of the exception. *)
Inductive json_body : Type :=
| JsonValue (data : pyval)
| JsonFails (e : string).

Inductive upstream_reply : Type :=
| PostFails (e : string)
| Response (status_code : Z) (body : json_body).

Definition Upstream : Type := HttpCall -> upstream_reply.

Definition system_prompt : string :=
  PyStr.strip (PyStr.text [
    "";
    "You are BenBot, the personal website assistant for Zhefan (Ben) Guo.";
    "";
    "Hard rules:";
    "- Use ONLY facts that appear in the Knowledge Base.";
    "- If the Knowledge Base does not contain the answer, say you don't have that information.";
    "- Do NOT invent names, labs, achievements, dates, or links.";
    "- If not in KB: say you don't have that information, and optionally suggest checking the resume.";
    "- Do NOT use Markdown links. If sharing a link, output the raw URL only.";
    "- Do NOT use any Markdown formatting (no **bold**, no backticks, no markdown bullets).";
    "- When sharing any link, output the raw URL only (no surrounding punctuation like ** or parentheses).";
    "";
    "Style:";
    "- Sound friendly and human, not like a template.";
    "- Vary phrasing (avoid repeating the same sentence patterns).";
    "- Prefer short paragraphs and bullet points when helpful.";
    "- You may add light conversational phrases as long as you do NOT add new facts.";
    "- Make sure you act like a vivid chatAgent";
    "- You can also include some Emojis, but not too often.";
    "- If the user asks " ++ PyStr.dquote ++ "who are you" ++ PyStr.dquote
      ++ " or " ++ PyStr.dquote ++ "who is Ben" ++ PyStr.dquote
      ++ ", give a 2-4 sentence intro, then offer what they can ask next.";
    "";
    "Language: English.";
    ""]).

Definition style_examples : string :=
  PyStr.strip (PyStr.text [
    "";
    "Examples (style only):";
    "User: what's my email?";
    "Assistant: Sure — Ben's email is zhefan.guo@uconn.edu.";
    "";
    "User: tell me who you are";
    "Assistant: I'm BenBot — a small assistant on Ben's website. I can help with Ben's background, projects, and links (based only on what's listed on the site).";
    "";
    "User: tell me who is Ben";
    "Assistant: Ben (Zhefan Guo) is a Computer Science major with a Mathematics minor at UConn, graduating in 2026. Want his projects or links?";
    ""]).

Definition MISCONFIGURED : string :=
  "Server misconfigured: DEEPSEEK_API_KEY is missing on Render env vars.".

Definition UNAVAILABLE : string :=
  "BenBot is temporarily unavailable (API balance is not set up yet). Please check back later or use the contact email: zhefan.guo@uconn.edu.".

Definition NO_RESPONSE : string := "Sorry — no response.".

(** The loop over [reversed(req.messages)]: the first message met whose
    role is ["user"] gives its content and ends the loop. *)
Fixpoint first_user (ms : list Msg) : string :=
  match ms with
  | [] => ""
  | m :: ms' => if String.eqb (role m) "user" then content m else first_user ms'
  end.

Definition last_user (messages : list Msg) : string :=
  first_user (List.rev messages).

(** [(req.kb or "").strip()]. *)
Definition kb_text (kb : option string) : string :=
  PyStr.strip (match kb with Some s => s | None => "" end).

Definition message (role content : string) : pyval :=
  PDict [("role", PStr role); ("content", PStr content)].

Definition payload (kb last_user : string) : pyval :=
  PDict [
    ("model", PStr "deepseek-chat");
    ("temperature", PFloat true "0.5");
    ("messages", PList [
       message "system" system_prompt;
       message "system" style_examples;
       message "system" ("Knowledge Base:" ++ PyStr.nl ++ kb);
       message "user" last_user])
  ].

Definition headers (api_key : string) : list (string * string) :=
  [("Authorization", "Bearer " ++ api_key);
   ("Content-Type", "application/json")].

(** [a or <k>], where evaluating the right operand may raise. *)
Definition or_else (a : pyval) (k : result pyval) : result pyval :=
  if Py.truthy a then Ok a else k.

(** The message of an upstream error body (lines 112-116).  Here and
    below [isprintable] is the interpreter's [str.isprintable] on code
    points, which [str] of a list or a dictionary consults. *)
Definition error_message (isprintable : N -> bool) (data : pyval)
  : result pyval :=
  e <- Py.get data "error" ;;
  m <- Py.get (Py.or_ e (PDict [])) "message" ;;
  or_else m (m' <- Py.get data "message" ;;
             or_else m' (Ok (PStr (Py.str isprintable data)))).

(** The branch for [r.status_code >= 400] (lines 111-121). *)
Definition error_reply (isprintable : N -> bool) (data : pyval)
  : result pyval :=
  msg <- error_message isprintable data ;;
  if PyStr.contains "insufficient balance"
                    (PyStr.lower (Py.str isprintable msg))
  then Ok (PDict [("answer", PStr UNAVAILABLE)])
  else Ok (PDict [("answer",
                   PStr ("DeepSeek API error: " ++ Py.str isprintable msg))]).

(** The last two lines of the handler (lines 123-124). *)
Definition success_reply (data : pyval) : result pyval :=
  choices <- Py.get data "choices" ;;
  choice <- Py.getitem0 (Py.or_ choices (PList [PDict []])) ;;
  m <- Py.get choice "message" ;;
  c <- Py.get (Py.or_ m (PDict [])) "content" ;;
  Ok (PDict [("answer", Py.or_ c (PStr NO_RESPONSE))]).

(** The one request the handler sends upstream (lines 104-106). *)
Definition outbound (api_key : string) (req : ChatReq) : HttpCall := {|
  call_url := DEEPSEEK_API_URL;
  call_headers := headers api_key;
  call_json := payload (kb_text (kb req)) (last_user (messages req));
  call_timeout := 60
|}.

(** [POST /chat].  The result is the handler's outcome, a returned value
    or a raised exception, and the list of the calls it made upstream. *)
Definition chat (isprintable : N -> bool)
           (environ : Environ) (upstream : Upstream) (req : ChatReq)
  : result pyval * list HttpCall :=
  match environ "DEEPSEEK_API_KEY" with
  | None => (Ok (PDict [("answer", PStr MISCONFIGURED)]), [])
  | Some api_key =>
      if String.eqb api_key ""
      then (Ok (PDict [("answer", PStr MISCONFIGURED)]), [])
      else
        let call := outbound api_key req in
        match upstream call with
        | PostFails e => (Raise (HTTPException 500 e), [call])
        | Response _ (JsonFails e) => (Raise (HTTPException 500 e), [call])
        | Response status_code (JsonValue data) =>
            if (400 <=? status_code)%Z
            then (error_reply isprintable data, [call])
            else (success_reply data, [call])
        end
  end.

(** What the framework can write as a JSON response: no float that is not
    finite, and no text, dictionary keys included, with a lone
    surrogate. *)
Definition nonfinite (text : string) : bool :=
  String.eqb text "inf" || String.eqb text "-inf" || String.eqb text "nan".

Fixpoint serialisable (v : pyval) : bool :=
  match v with
  | PNone | PBool _ | PInt _ => true
  | PFloat _ text => negb (nonfinite text)
  | PStr s => PyStr.encodable s
  | PList l => forallb serialisable l
  | PDict d =>
      forallb (fun kv => PyStr.encodable (fst kv) && serialisable (snd kv)) d
  end.

(** How the framework answers for the outcome of a handler: a returned
    value goes out as JSON with status 200, an [HTTPException] with its
    status and its detail, and any other exception that leaves the handler
    as a plain 500; so does a value, or a detail, that cannot be written
    as JSON. *)
Inductive response_body : Type :=
| JSONBody (v : pyval)
| TextBody (s : string).

Definition respond (r : result pyval) : Z * response_body :=
  match r with
  | Ok v =>
      if serialisable v then (200%Z, JSONBody v)
      else (500%Z, TextBody "Internal Server Error")
  | Raise (HTTPException status_code detail) =>
      if PyStr.encodable detail
      then (status_code, JSONBody (PDict [("detail", PStr detail)]))
      else (500%Z, TextBody "Internal Server Error")
  | Raise _ => (500%Z, TextBody "Internal Server Error")
  end.

Definition status_of (r : result pyval) : Z := fst (respond r).

(** The answer of a returned reply. *)
Definition answer_of (r : result pyval) : option pyval :=
  match r with
  | Ok (PDict d) => Py.dict_get d "answer"
  | _ => None
  end.

Definition env_with (key : option string) : Environ :=
  fun name => if String.eqb name "DEEPSEEK_API_KEY" then key else None.

(** A sample of [isprintable] for the examples: of the characters outside
    ASCII it takes the Latin-1 letters and signs for printable.  No example
    stringifies a character outside ASCII, so each holds for every table. *)
Definition sample_isprintable (c : N) : bool :=
  ((161 <=? c) && (c <? 256) && negb (c =? 173))%N.

(** ** Notions the properties are stated with *)

(** A string that is a run of tokens of [toks]. *)
Inductive made_of (toks : list string) : string -> Prop :=
| made_of_nil : made_of toks ""
| made_of_cons (w s : string) :
    In w toks -> made_of toks s -> made_of toks (w ++ s).

(** A string made of whitespace characters only. *)
Definition all_space : string -> Prop := made_of PyStr.whitespace.

(** [t] is [s] without its surrounding whitespace. *)
Definition trimmed (s t : string) : Prop :=
  exists pre post,
    s = pre ++ t ++ post /\ all_space pre /\ all_space post /\
    (forall w r, In w PyStr.whitespace -> t <> w ++ r) /\
    (forall w r, In w PyStr.whitespace -> t <> r ++ w).

(** [s] has [needle] as a substring, letter case apart. *)
Definition ci_substring (needle s : string) : Prop :=
  exists pre mid post,
    s = pre ++ mid ++ post /\ PyStr.lower mid = PyStr.lower needle.

Definition is_dict (v : pyval) : bool :=
  match v with PDict _ => true | _ => false end.

(** The field [k] of a JSON object, [None] when it is missing or when [v]
    is no object. *)
Definition field (v : pyval) (k : string) : pyval :=
  match v with
  | PDict d => match Py.dict_get d k with Some x => x | None => PNone end
  | _ => PNone
  end.

(** A value that is an object, or absent, null or otherwise falsy. *)
Definition object_or_falsy (v : pyval) : bool :=
  is_dict v || negb (Py.truthy v).

(** The message of an error body as the specification words it:
    [error.message], then the top-level [message], then the stringified
    body. *)
Definition extracted_message (isprintable : N -> bool) (data : pyval)
  : pyval :=
  let m1 := field (field data "error") "message" in
  if Py.truthy m1 then m1
  else
    let m2 := field data "message" in
    if Py.truthy m2 then m2 else PStr (Py.str isprintable data).

(** An error body of the expected shape: an object whose [error] is an
    object when it is there at all. *)
Definition error_shape (data : pyval) : bool :=
  is_dict data && object_or_falsy (field data "error").

(** The first element of [choices]. *)
Definition first_choice (data : pyval) : pyval :=
  match field data "choices" with
  | PList (x :: _) => x
  | _ => PNone
  end.

(** The content of the first choice's message. *)
Definition first_content (data : pyval) : pyval :=
  field (field (first_choice data) "message") "content".

(** A completion body of the expected shape: an object whose [choices] is
    missing, falsy, or a list that starts with an object whose [message] is
    an object when it is there at all. *)
Definition success_shape (data : pyval) : bool :=
  is_dict data &&
  (negb (Py.truthy (field data "choices")) ||
   match field data "choices" with
   | PList (x :: _) => is_dict x && object_or_falsy (field x "message")
   | _ => false
   end).

Definition body_shape (status_code : Z) (data : pyval) : bool :=
  if (400 <=? status_code)%Z then error_shape data else success_shape data.

(** A message of the user. *)
Definition is_user (m : Msg) : Prop := role m = "user".

(** The upstream call failed at the transport level with text [e]. *)
Definition transport_failure (r : upstream_reply) (e : string) : Prop :=
  r = PostFails e \/ exists status_code, r = Response status_code (JsonFails e).

(** ** Facts about strings *)

Module PyStrFacts.
Import PyStr.

Lemma app_nil_r (s : string) : s ++ "" = s.
Proof. induction s as [|c s IH]; simpl; [reflexivity | now rewrite IH]. Qed.

Lemma app_assoc (a b c : string) : (a ++ b) ++ c = a ++ (b ++ c).
Proof. induction a as [|x a IH]; simpl; [reflexivity | now rewrite IH]. Qed.

Lemma length_app (a b : string) :
  String.length (a ++ b) = (String.length a + String.length b)%nat.
Proof. induction a as [|x a IH]; simpl; [reflexivity | now rewrite IH]. Qed.


Lemma rev_app (a b : string) : rev (a ++ b) = rev b ++ rev a.
Proof.
  induction a as [|x a IH]; simpl.
  - now rewrite app_nil_r.
  - now rewrite IH, app_assoc.
Qed.

Lemma rev_involutive (s : string) : rev (rev s) = s.
Proof.
  induction s as [|x s IH]; simpl; [reflexivity|].
  now rewrite rev_app, IH.
Qed.


Lemma drop_prefix_app (w r : string) : drop_prefix w (w ++ r) = Some r.
Proof.
  induction w as [|a w IH]; simpl; [reflexivity|].
  now rewrite Ascii.eqb_refl.
Qed.

Lemma drop_prefix_Some (w s r : string) :
  drop_prefix w s = Some r -> s = w ++ r.
Proof.
  revert s; induction w as [|a w IH]; intros s H; simpl in H.
  - now injection H as ->.
  - destruct s as [|b s]; [discriminate|].
    destruct (Ascii.eqb_spec a b) as [->|]; [|discriminate].
    simpl. f_equal. auto.
Qed.


Lemma startswith_iff (w s : string) :
  startswith w s = true <-> exists r, s = w ++ r.
Proof.
  unfold startswith. split.
  - destruct (drop_prefix w s) as [r|] eqn:E; [|discriminate].
    intros _. exists r. now apply drop_prefix_Some.
  - intros [r ->]. now rewrite drop_prefix_app.
Qed.

(** [needle in hay] finds exactly the substrings. *)
Lemma contains_iff (needle hay : string) :
  contains needle hay = true <->
  exists pre post, hay = pre ++ needle ++ post.
Proof.
  induction hay as [|c hay IH].
  - simpl. rewrite orb_false_r, startswith_iff. split.
    + intros [r H]. now exists "", r.
    + intros [pre [post H]]. destruct pre as [|x pre]; [|discriminate].
      now exists post.
  - cbn [contains]. rewrite orb_true_iff, startswith_iff, IH. split.
    + intros [[r H]|[pre [post H]]].
      * now exists "", r.
      * exists (String c pre), post. simpl. now rewrite H.
    + intros [pre [post H]]. destruct pre as [|x pre].
      * left. now exists post.
      * right. simpl in H. injection H as _ H. now exists pre, post.
Qed.

Lemma lower_app (a b : string) : lower (a ++ b) = lower a ++ lower b.
Proof. induction a as [|x a IH]; simpl; [reflexivity | now rewrite IH]. Qed.

(** A split of the lowered text is the lowering of a split of the text. *)
Lemma lower_split (s a b : string) :
  lower s = a ++ b ->
  exists x y, s = x ++ y /\ lower x = a /\ lower y = b.
Proof.
  revert s; induction a as [|c a IH]; intros s H.
  - exists "", s. auto.
  - destruct s as [|d s]; [discriminate|].
    simpl in H. injection H as Hc H.
    destruct (IH s H) as [x [y [-> [Hx Hy]]]].
    exists (String d x), y. simpl. now rewrite Hc, Hx.
Qed.



(** The handler's test, [needle in s.lower()], for a lower-case needle. *)
Lemma contains_lower_iff (needle s : string) :
  lower needle = needle ->
  (contains needle (lower s) = true <-> ci_substring needle s).
Proof.
  intros Hn. rewrite contains_iff. unfold ci_substring. split.
  - intros [pre [post H]].
    destruct (lower_split _ _ _ H) as [x [y [-> [Hx Hy]]]].
    destruct (lower_split _ _ _ Hy) as [m [z [-> [Hm Hz]]]].
    exists x, m, z. split; [reflexivity|]. now rewrite Hn.
  - intros [pre [mid [post [-> H]]]].
    exists (lower pre), (lower post).
    now rewrite !lower_app, H, Hn.
Qed.

(** *** Stripping *)

Section Strip.
Variable toks : list string.

Lemma lstrip1_Some (s r : string) :
  lstrip1 toks s = Some r -> exists w, In w toks /\ s = w ++ r.
Proof.
  induction toks as [|w l IH]; simpl; [discriminate|].
  destruct (drop_prefix w s) as [r'|] eqn:E.
  - intros H. injection H as ->. exists w. split; [now left|].
    now apply drop_prefix_Some.
  - intros H. destruct (IH H) as [w' [Hin Hs]]. exists w'. auto.
Qed.

Lemma lstrip1_None (s : string) :
  lstrip1 toks s = None -> forall w r, In w toks -> s <> w ++ r.
Proof.
  induction toks as [|w l IH]; simpl; intros H w' r Hin; [contradiction|].
  destruct (drop_prefix w s) as [r'|] eqn:E; [discriminate|].
  destruct Hin as [<-|Hin].
  - intros ->. now rewrite drop_prefix_app in E.
  - now apply IH.
Qed.

Lemma made_of_app (a b : string) :
  made_of toks a -> made_of toks b -> made_of toks (a ++ b).
Proof.
  induction 1; simpl; [auto|]. intros Hb. rewrite app_assoc.
  constructor; auto.
Qed.

Hypothesis toks_nonempty : forall w, In w toks -> w <> "".

Lemma lstrip1_empty : lstrip1 toks "" = None.
Proof.
  destruct (lstrip1 toks "") as [r|] eqn:E; [|reflexivity].
  destruct (lstrip1_Some _ _ E) as [w [Hin H]].
  destruct w as [|c w]; [|discriminate].
  now destruct (toks_nonempty _ Hin).
Qed.

(** With fuel for every character the loop stops on its own: what it
    removed is a run of tokens, and no token starts what is left. *)
Lemma lstrip_loop_spec (n : nat) : forall s,
  (String.length s <= n)%nat ->
  exists pre,
    s = pre ++ lstrip_loop toks n s /\ made_of toks pre /\
    lstrip1 toks (lstrip_loop toks n s) = None.
Proof.
  induction n as [|n IH]; intros s Hlen.
  - destruct s; [|simpl in Hlen; lia].
    exists "". simpl. repeat split; [constructor | apply lstrip1_empty].
  - simpl. destruct (lstrip1 toks s) as [r|] eqn:E.
    + destruct (lstrip1_Some _ _ E) as [w [Hin ->]].
      assert (Hw : w <> "") by auto.
      assert (Hr : (String.length r <= n)%nat).
      { rewrite length_app in Hlen. destruct w; [congruence|].
        simpl in Hlen. lia. }
      destruct (IH r Hr) as [pre [Hpre [Hsp Hnone]]].
      exists (w ++ pre). rewrite app_assoc, <- Hpre.
      repeat split; [now constructor | exact Hnone].
    + exists "". repeat split; [constructor | exact E].
Qed.

Lemma lstrip_with_spec (s : string) :
  exists pre,
    s = pre ++ lstrip_with toks s /\ made_of toks pre /\
    (forall w r, In w toks -> lstrip_with toks s <> w ++ r).
Proof.
  destruct (lstrip_loop_spec (String.length s) s (le_n _))
    as [pre [H1 [H2 H3]]].
  exists pre. repeat split; auto. now apply lstrip1_None.
Qed.

End Strip.

Lemma made_of_rev (toks : list string) (s : string) :
  made_of (map rev toks) s -> made_of toks (rev s).
Proof.
  induction 1 as [|w s Hin Hs IH]; [constructor|].
  rewrite rev_app. apply made_of_app; [exact IH|].
  apply in_map_iff in Hin. destruct Hin as [w0 [<- Hin]].
  rewrite rev_involutive, <- (app_nil_r w0). constructor; [exact Hin|].
  constructor.
Qed.

Lemma whitespace_nonempty (w : string) : In w whitespace -> w <> "".
Proof.
  intros Hin ->. revert Hin. vm_compute.
  intuition discriminate.
Qed.

Lemma rev_whitespace_nonempty (w : string) :
  In w (map rev whitespace) -> w <> "".
Proof.
  intros Hin ->. revert Hin. vm_compute.
  intuition discriminate.
Qed.

Lemma lstrip_spec (s : string) :
  exists pre,
    s = pre ++ lstrip s /\ all_space pre /\
    (forall w r, In w whitespace -> lstrip s <> w ++ r).
Proof. apply lstrip_with_spec, whitespace_nonempty. Qed.

Lemma rstrip_spec (s : string) :
  exists post,
    s = rstrip s ++ post /\ all_space post /\
    (forall w r, In w whitespace -> rstrip s <> r ++ w).
Proof.
  destruct (lstrip_with_spec _ rev_whitespace_nonempty (rev s))
    as [pre [H1 [H2 H3]]].
  exists (rev pre). unfold rstrip. repeat split.
  - rewrite <- rev_app, <- H1. now rewrite rev_involutive.
  - now apply made_of_rev.
  - intros w r Hin H.
    apply (H3 (rev w) (rev r)); [now apply in_map|].
    rewrite <- rev_app, <- H. now rewrite rev_involutive.
Qed.

(** [s.strip()] is [s] without its surrounding whitespace. *)
Lemma strip_trimmed (s : string) : trimmed s (strip s).
Proof.
  destruct (lstrip_spec s) as [pre [H1 [H2 H3]]].
  destruct (rstrip_spec (lstrip s)) as [post [H4 [H5 H6]]].
  exists pre, post. unfold strip. repeat split; auto.
  - now rewrite <- H4.
  - intros w r Hin H. apply (H3 w (r ++ post) Hin).
    rewrite H4 at 1. now rewrite H, app_assoc.
Qed.

End PyStrFacts.

(** ** The most recent user message *)

Lemma first_user_skip (pre l : list Msg) :
  Forall (fun m => ~ is_user m) pre ->
  first_user (pre ++ l)%list = first_user l.
Proof.
  induction 1 as [|m pre Hm _ IH]; simpl; [reflexivity|].
  destruct (String.eqb_spec (role m) "user") as [E|_]; [now destruct Hm | exact IH].
Qed.

Lemma first_user_none (l : list Msg) :
  Forall (fun m => ~ is_user m) l -> first_user l = "".
Proof.
  intros H. rewrite <- (List.app_nil_r l). now rewrite first_user_skip.
Qed.

Lemma last_user_after (pre post : list Msg) (m : Msg) :
  is_user m -> Forall (fun x => ~ is_user x) post ->
  last_user (pre ++ m :: post)%list = content m.
Proof.
  intros Hm Hpost. unfold last_user.
  rewrite rev_app_distr. simpl. rewrite <- List.app_assoc.
  rewrite first_user_skip by now apply Forall_rev.
  simpl. unfold is_user in Hm. now rewrite Hm.
Qed.

(** Every list of messages either has a last user message, with only
    messages of other roles behind it, or has no user message at all. *)
Lemma last_user_split (l : list Msg) :
  (exists pre m post, l = (pre ++ m :: post)%list /\ is_user m /\
                      Forall (fun x => ~ is_user x) post)
  \/ Forall (fun x => ~ is_user x) l.
Proof.
  induction l as [|x l IH].
  - right. constructor.
  - destruct IH as [[pre [m [post [-> [Hm Hpost]]]]]|Hnone].
    + left. exists (x :: pre), m, post. auto.
    + destruct (String.string_dec (role x) "user") as [E|E].
      * left. exists [], x, l. auto.
      * right. constructor; assumption.
Qed.

(** C1.  For every request, [last_user] is the content of the last message
    whose role is ["user"], and the empty string when there is none (an
    empty list included); messages of other roles that come after that
    message do not change the result. *)
Theorem last_user_is_latest_user_turn (req : ChatReq) :
  ((exists pre m post,
      messages req = (pre ++ m :: post)%list /\ role m = "user" /\
      Forall (fun x => role x <> "user") post /\
      last_user (messages req) = content m)
   \/ (Forall (fun x => role x <> "user") (messages req) /\
       last_user (messages req) = ""))
  /\ (forall pre m post,
        role m = "user" -> Forall (fun x => role x <> "user") post ->
        last_user (pre ++ m :: post)%list = content m /\
        last_user (pre ++ m :: post)%list = last_user (pre ++ [m])%list).
Proof.
  split.
  - destruct (last_user_split (messages req))
      as [[pre [m [post [E [Hm Hpost]]]]]|Hnone].
    + left. exists pre, m, post. repeat split; auto.
      rewrite E. now apply last_user_after.
    + right. split; [exact Hnone|].
      unfold last_user. apply first_user_none. now apply Forall_rev.
  - intros pre m post Hm Hpost.
    rewrite (last_user_after pre post m Hm Hpost).
    rewrite (last_user_after pre [] m Hm); auto.
Qed.

Lemma last_user_is_latest_user_turn_witness :
  last_user [ {| role := "user"; content := "first" |};
              {| role := "assistant"; content := "reply" |};
              {| role := "user"; content := "second" |};
              {| role := "system"; content := "note" |} ] = "second".
Proof.
  refine (proj1 (proj2 (last_user_is_latest_user_turn
                          {| messages := []; kb := None |})
                   [ {| role := "user"; content := "first" |};
                     {| role := "assistant"; content := "reply" |} ]
                   {| role := "user"; content := "second" |}
                   [ {| role := "system"; content := "note" |} ] _ _)).
  - reflexivity.
  - repeat constructor. simpl. discriminate.
Defined.

(** ** The handler without and with the API key *)

Lemma chat_no_key (isprintable : N -> bool)
      (environ : Environ) (upstream : Upstream) (req : ChatReq) :
  environ "DEEPSEEK_API_KEY" = None \/ environ "DEEPSEEK_API_KEY" = Some "" ->
  chat isprintable environ upstream req =
  (Ok (PDict [("answer", PStr MISCONFIGURED)]), []).
Proof. unfold chat. now intros [-> | ->]. Qed.

Lemma chat_with_key (isprintable : N -> bool)
      (environ : Environ) (upstream : Upstream) (req : ChatReq)
      (api_key : string) :
  environ "DEEPSEEK_API_KEY" = Some api_key -> api_key <> "" ->
  chat isprintable environ upstream req =
  (match upstream (outbound api_key req) with
   | PostFails e => Raise (HTTPException 500 e)
   | Response _ (JsonFails e) => Raise (HTTPException 500 e)
   | Response status_code (JsonValue data) =>
       if (400 <=? status_code)%Z then error_reply isprintable data
       else success_reply data
   end, [outbound api_key req]).
Proof.
  intros E Hne. unfold chat. rewrite E.
  destruct (String.eqb_spec api_key "") as [->|_]; [now destruct Hne|].
  destruct (upstream (outbound api_key req)) as [e|st [data|e]]; try reflexivity.
  now destruct (400 <=? st)%Z.
Qed.

(** C2.  With the API key present the handler sends exactly one request
    upstream, and its JSON payload is the model ["deepseek-chat"], the
    temperature 0.5 and four messages in this order: the persona and rules,
    the style examples, ["Knowledge Base:\n"] followed by the knowledge
    base, and the last user message.  The knowledge base is the request's
    [kb], an absent one read as the empty string, without its surrounding
    whitespace. *)
Theorem chat_payload (isprintable : N -> bool)
      (environ : Environ) (upstream : Upstream) (req : ChatReq)
        (api_key : string) :
  environ "DEEPSEEK_API_KEY" = Some api_key -> api_key <> "" ->
  let kb' := kb_text (kb req) in
  trimmed (match kb req with Some s => s | None => "" end) kb' /\
  map call_json (snd (chat isprintable environ upstream req)) =
  [PDict [
     ("model", PStr "deepseek-chat");
     ("temperature", PFloat true "0.5");
     ("messages", PList [
        PDict [("role", PStr "system"); ("content", PStr system_prompt)];
        PDict [("role", PStr "system"); ("content", PStr style_examples)];
        PDict [("role", PStr "system");
               ("content", PStr ("Knowledge Base:" ++ PyStr.nl ++ kb'))];
        PDict [("role", PStr "user");
               ("content", PStr (last_user (messages req)))]])]].
Proof.
  intros E Hne kb'. split.
  - apply PyStrFacts.strip_trimmed.
  - now rewrite (chat_with_key _ _ _ _ _ E Hne).
Qed.

Lemma chat_payload_witness :
  map call_json
      (snd (chat sample_isprintable (env_with (Some "sk-test"))
                 (fun _ => PostFails "timed out")
                 {| messages := [ {| role := "user"; content := "hello" |} ];
                    kb := Some "  Ben studies at UConn. " |})) =
  [PDict [
     ("model", PStr "deepseek-chat");
     ("temperature", PFloat true "0.5");
     ("messages", PList [
        PDict [("role", PStr "system"); ("content", PStr system_prompt)];
        PDict [("role", PStr "system"); ("content", PStr style_examples)];
        PDict [("role", PStr "system");
               ("content", PStr ("Knowledge Base:" ++ PyStr.nl
                                 ++ "Ben studies at UConn."))];
        PDict [("role", PStr "user"); ("content", PStr "hello")]])]].
Proof.
  refine (proj2 (chat_payload sample_isprintable (env_with (Some "sk-test"))
                   (fun _ => PostFails "timed out")
                   {| messages := [ {| role := "user"; content := "hello" |} ];
                      kb := Some "  Ben studies at UConn. " |}
                   "sk-test" _ _)).
  - reflexivity.
  - discriminate.
Defined.

(** C5.  Without the API key in the environment the handler makes no call
    upstream and answers with status 200 and a text that contains
    ["Server misconfigured"], whatever the request holds. *)
Theorem chat_without_key (isprintable : N -> bool)
      (environ : Environ) (upstream : Upstream)
        (req : ChatReq) :
  environ "DEEPSEEK_API_KEY" = None ->
  snd (chat isprintable environ upstream req) = [] /\
  exists a,
    respond (fst (chat isprintable environ upstream req)) =
    (200%Z, JSONBody (PDict [("answer", PStr a)])) /\
    exists pre post, a = pre ++ "Server misconfigured" ++ post.
Proof.
  intros E. rewrite (chat_no_key isprintable environ upstream req (or_introl E)).
  split; [reflexivity|].
  exists MISCONFIGURED. split; [reflexivity|].
  exists "", ": DEEPSEEK_API_KEY is missing on Render env vars.". reflexivity.
Qed.

Lemma chat_without_key_witness :
  snd (chat sample_isprintable (env_with None) (fun _ => PostFails "unreachable")
            {| messages := [ {| role := "user"; content := "hi" |} ];
               kb := Some "facts" |}) = [].
Proof.
  refine (proj1 (chat_without_key sample_isprintable (env_with None)
                   (fun _ => PostFails "unreachable")
                   {| messages := [ {| role := "user"; content := "hi" |} ];
                      kb := Some "facts" |} _)).
  reflexivity.
Defined.

(** C10.  An API key that is set to the empty string is the same as no key:
    the handler does what it does in an environment without the variable,
    that is, it makes no call upstream and answers with status 200 and the
    ["Server misconfigured"] text. *)
Theorem chat_with_empty_key (isprintable : N -> bool)
      (environ : Environ) (upstream : Upstream)
        (req : ChatReq) :
  environ "DEEPSEEK_API_KEY" = Some "" ->
  chat isprintable environ upstream req =
  chat isprintable (env_with None) upstream req /\
  snd (chat isprintable environ upstream req) = [] /\
  respond (fst (chat isprintable environ upstream req)) =
  (200%Z, JSONBody (PDict [("answer", PStr MISCONFIGURED)])) /\
  exists post, MISCONFIGURED = "Server misconfigured" ++ post.
Proof.
  intros E. rewrite (chat_no_key isprintable environ upstream req (or_intror E)).
  repeat split.
  exists ": DEEPSEEK_API_KEY is missing on Render env vars.". reflexivity.
Qed.

Lemma chat_with_empty_key_witness :
  chat sample_isprintable (env_with (Some "")) (fun _ => PostFails "unreachable")
       {| messages := []; kb := None |} =
  chat sample_isprintable (env_with None) (fun _ => PostFails "unreachable")
       {| messages := []; kb := None |}.
Proof.
  refine (proj1 (chat_with_empty_key sample_isprintable (env_with (Some ""))
                   (fun _ => PostFails "unreachable")
                   {| messages := []; kb := None |} _)).
  reflexivity.
Defined.

(** ** The liveness route *)

(** C7.  [GET /health] takes no input, cannot fail, and always answers
    with status 200 and the body [{"ok": true}]. *)
Theorem health_ok (u : unit) :
  respond (health u) = (200%Z, JSONBody (PDict [("ok", PBool true)])).
Proof. reflexivity. Qed.

(** ** The cross-origin policy *)

Lemma mem_str_In (x : string) (l : list string) :
  mem_str x l = true <-> In x l.
Proof.
  unfold mem_str. rewrite existsb_exists. split.
  - intros [y [Hin E]]. apply String.eqb_eq in E. now subst.
  - intros Hin. exists x. split; [exact Hin | apply String.eqb_refl].
Qed.

(** C8.  The allow-list is two exact origins and has no wildcard; an origin
    is let through exactly when it is one of them; no response carries the
    credentials header; the methods allowed are exactly POST, GET and
    OPTIONS; every request header is accepted; an origin outside the
    allow-list gets no cross-origin header, an origin of the allow-list
    gets the header that names it. *)
Theorem cors_policy :
  ~ In "*" (allow_origins cors) /\
  (forall origin,
      origin_allowed cors origin = true <->
      origin = "https://ben-gzf.github.io" \/ origin = "http://localhost:3000") /\
  (forall origin value,
      ~ In ("Access-Control-Allow-Credentials", value) (cors_headers cors origin)) /\
  (forall method,
      method_allowed cors method = true <->
      method = "POST" \/ method = "GET" \/ method = "OPTIONS") /\
  (forall header, header_allowed cors header = true) /\
  (forall origin, ~ In origin ALLOWED_ORIGINS -> cors_headers cors origin = []) /\
  (forall origin,
      In origin ALLOWED_ORIGINS ->
      In ("Access-Control-Allow-Origin", origin) (cors_headers cors origin)).
Proof.
  assert (Hallowed : forall origin,
             origin_allowed cors origin = true <-> In origin ALLOWED_ORIGINS).
  { intros origin. unfold origin_allowed. rewrite orb_true_iff, !mem_str_In.
    simpl. intuition discriminate. }
  split; [simpl; intuition discriminate|].
  split.
  { intros origin. rewrite Hallowed. simpl. clear Hallowed.
    intuition congruence. }
  split.
  { intros origin value. clear Hallowed. unfold cors_headers.
    destruct (origin_allowed cors origin); simpl; intuition discriminate. }
  split.
  { intros method. clear Hallowed. unfold method_allowed.
    rewrite orb_true_iff, !mem_str_In. simpl. intuition congruence. }
  split; [reflexivity|].
  split.
  - intros origin Hout. unfold cors_headers.
    destruct (origin_allowed cors origin) eqn:E; [|reflexivity].
    apply Hallowed in E. contradiction.
  - intros origin Hin. unfold cors_headers.
    apply Hallowed in Hin. rewrite Hin. now left.
Qed.

Lemma cors_policy_witness :
  cors_headers cors "https://evil.example" = [] /\
  In ("Access-Control-Allow-Origin", "http://localhost:3000")
     (cors_headers cors "http://localhost:3000").
Proof.
  destruct cors_policy as [_ [_ [_ [_ [_ [Hout Hin]]]]]].
  split.
  - apply Hout. simpl. intuition discriminate.
  - apply Hin. simpl. auto.
Defined.

(** ** Mapping the upstream response *)

Lemma is_dict_inv (v : pyval) : is_dict v = true -> exists d, v = PDict d.
Proof. destruct v; try discriminate. intros _. now eexists. Qed.

(** On an object, or on a falsy value replaced by [{}], the method [get]
    reads the field. *)
Lemma get_or_empty (v : pyval) (k : string) :
  object_or_falsy v = true ->
  Py.get (Py.or_ v (PDict [])) k = Ok (field v k).
Proof.
  unfold object_or_falsy, Py.or_. intros H.
  destruct (Py.truthy v) eqn:T.
  - rewrite orb_false_r in H. destruct (is_dict_inv _ H) as [d ->]. reflexivity.
  - destruct v; try reflexivity. now destruct d.
Qed.

(** On an error body of the expected shape the handler's chain computes
    the message of the specification. *)
Lemma error_message_shape (isprintable : N -> bool) (data : pyval) :
  error_shape data = true ->
  error_message isprintable data = Ok (extracted_message isprintable data).
Proof.
  unfold error_shape. intros H. apply andb_true_iff in H. destruct H as [Hd He].
  destruct (is_dict_inv _ Hd) as [d ->].
  unfold error_message, extracted_message.
  cbn [Py.get bind]. fold (field (PDict d) "error").
  rewrite (get_or_empty _ "message" He). cbn [bind]. unfold or_else.
  destruct (Py.truthy (field (field (PDict d) "error") "message")); [reflexivity|].
  fold (field (PDict d) "message").
  now destruct (Py.truthy (field (PDict d) "message")).
Qed.

Lemma error_reply_shape (isprintable : N -> bool) (data : pyval) :
  error_shape data = true ->
  let msg := Py.str isprintable (extracted_message isprintable data) in
  error_reply isprintable data =
  Ok (PDict [("answer",
              PStr (if PyStr.contains "insufficient balance" (PyStr.lower msg)
                    then UNAVAILABLE
                    else "DeepSeek API error: " ++ msg))]).
Proof.
  intros H msg. unfold error_reply. rewrite (error_message_shape _ _ H).
  cbn [bind]. fold msg.
  now destruct (PyStr.contains "insufficient balance" (PyStr.lower msg)).
Qed.

(** On a completion body of the expected shape the handler answers with
    the first choice's content, or with the fallback when that is falsy. *)
Lemma success_reply_shape (data : pyval) :
  success_shape data = true ->
  success_reply data =
  Ok (PDict [("answer", Py.or_ (first_content data) (PStr NO_RESPONSE))]).
Proof.
  unfold success_shape. intros H. apply andb_true_iff in H. destruct H as [Hd Hc].
  destruct (is_dict_inv _ Hd) as [d ->].
  unfold success_reply, first_content, first_choice.
  cbn [Py.get bind]. fold (field (PDict d) "choices").
  destruct (field (PDict d) "choices") as [| b | z | nz t | s0 | l | d0] eqn:E;
    cbn [Py.truthy negb orb] in Hc; unfold Py.or_; cbn [Py.truthy].
  - reflexivity.
  - rewrite orb_false_r in Hc. apply negb_true_iff in Hc. now rewrite Hc.
  - rewrite orb_false_r in Hc. apply negb_true_iff in Hc.
    apply negb_false_iff in Hc. rewrite Hc. reflexivity.
  - rewrite orb_false_r in Hc. apply negb_true_iff in Hc. now rewrite Hc.
  - rewrite orb_false_r in Hc. apply negb_true_iff in Hc.
    apply negb_false_iff in Hc. rewrite Hc. reflexivity.
  - destruct l as [|x l]; [reflexivity|].
    cbn [negb orb] in Hc. apply andb_true_iff in Hc. destruct Hc as [Hx Hm].
    destruct (is_dict_inv _ Hx) as [dx ->].
    cbn [Py.getitem0 Py.get bind]. fold (field (PDict dx) "message").
    pose proof (get_or_empty _ "content" Hm) as G. unfold Py.or_ in G.
    rewrite G. reflexivity.
  - destruct d0; [reflexivity|]. discriminate.
Qed.

Lemma body_shape_returns (isprintable : N -> bool) (status_code : Z) (data : pyval) :
  body_shape status_code data = true ->
  exists v,
    (if (400 <=? status_code)%Z then error_reply isprintable data else success_reply data)
    = Ok v.
Proof.
  unfold body_shape. destruct (400 <=? status_code)%Z; intros H.
  - rewrite (error_reply_shape _ _ H). now eexists.
  - rewrite (success_reply_shape _ H). now eexists.
Qed.

(** *** Upstream errors *)

Lemma respond_answer (v : pyval) :
  serialisable v = true ->
  respond (Ok (PDict [("answer", v)])) =
  (200%Z, JSONBody (PDict [("answer", v)])).
Proof.
  intros H. unfold respond. cbn [serialisable forallb fst snd].
  rewrite H. reflexivity.
Qed.

Lemma respond_answer_bad (v : pyval) :
  serialisable v = false ->
  respond (Ok (PDict [("answer", v)])) =
  (500%Z, TextBody "Internal Server Error").
Proof.
  intros H. unfold respond. cbn [serialisable forallb fst snd].
  rewrite H. reflexivity.
Qed.

(** C3, as the handler has it.  For an upstream response with status 400 or
    more whose body parses to a JSON object in which [error] is an object,
    absent, null or otherwise falsy, the handler returns an answer.  With
    the message taken from [error.message], else from the top-level
    [message], else from the stringified body, the answer is the fixed
    unavailability text when the message contains "insufficient balance" in
    any letter case, and ["DeepSeek API error: "] followed by the message
    otherwise.  The reply has status 200 with the fixed text always, and
    with the other answer when the message has no lone surrogate. *)
Theorem upstream_error_is_answered
        (isprintable : N -> bool)
        (environ : Environ) (upstream : Upstream) (req : ChatReq)
        (api_key : string) (status_code : Z) (data : pyval) :
  environ "DEEPSEEK_API_KEY" = Some api_key -> api_key <> "" ->
  upstream (outbound api_key req) = Response status_code (JsonValue data) ->
  (400 <= status_code)%Z ->
  error_shape data = true ->
  let msg := Py.str isprintable (extracted_message isprintable data) in
  exists a,
    fst (chat isprintable environ upstream req) =
    Ok (PDict [("answer", PStr a)]) /\
    (ci_substring "insufficient balance" msg ->
     a = UNAVAILABLE /\
     respond (fst (chat isprintable environ upstream req)) =
     (200%Z, JSONBody (PDict [("answer", PStr a)]))) /\
    (~ ci_substring "insufficient balance" msg ->
     a = "DeepSeek API error: " ++ msg /\
     (PyStr.encodable msg = true ->
      respond (fst (chat isprintable environ upstream req)) =
      (200%Z, JSONBody (PDict [("answer", PStr a)])))).
Proof.
  intros E Hne Hup Hst Hshape msg.
  rewrite (chat_with_key _ _ _ _ _ E Hne), Hup.
  replace (400 <=? status_code)%Z with true by (symmetry; now apply Z.leb_le).
  cbn [fst]. rewrite (error_reply_shape _ _ Hshape). fold msg.
  pose proof (PyStrFacts.contains_lower_iff "insufficient balance" msg eq_refl)
    as Hci.
  destruct (PyStr.contains "insufficient balance" (PyStr.lower msg)).
  - exists UNAVAILABLE. split; [reflexivity|]. split.
    + intros _. split; reflexivity.
    + intros Hno. destruct Hno. now apply Hci.
  - exists ("DeepSeek API error: " ++ msg). split; [reflexivity|]. split.
    + intros Hyes. apply Hci in Hyes. discriminate.
    + intros _. split; [reflexivity|]. intros Henc.
      apply respond_answer. exact Henc.
Qed.

Lemma upstream_error_is_answered_witness :
  exists a,
    respond (fst (chat sample_isprintable (env_with (Some "sk-test"))
                       (fun _ => Response 402 (JsonValue (PDict [
                          ("error", PDict [("message", PStr "Insufficient Balance")])])))
                       {| messages := [ {| role := "user"; content := "hi" |} ];
                          kb := None |})) =
    (200%Z, JSONBody (PDict [("answer", PStr a)])) /\
    a = UNAVAILABLE.
Proof.
  destruct (upstream_error_is_answered
              sample_isprintable
              (env_with (Some "sk-test"))
              (fun _ => Response 402 (JsonValue (PDict [
                 ("error", PDict [("message", PStr "Insufficient Balance")])])))
              {| messages := [ {| role := "user"; content := "hi" |} ];
                 kb := None |}
              "sk-test" 402
              (PDict [("error", PDict [("message", PStr "Insufficient Balance")])])
              eq_refl ltac:(discriminate) eq_refl ltac:(lia) eq_refl)
    as [a [_ [Hyes _]]].
  exists a.
  destruct Hyes as [Ha Hr].
  - exists "", "Insufficient Balance", "". split; reflexivity.
  - split; [exact Hr | exact Ha].
Defined.

(** The claim C3 as written fails on three inputs: a status 502 whose body
    is no JSON is answered with status 500 and the parser's text; a status
    401 whose [error] is a text makes the handler raise; and a status 400
    whose message holds the lone surrogate U+D800 gives an answer that
    cannot be written as JSON, so the reply is a plain 500. *)
Lemma upstream_error_not_always_answered :
  respond (fst (chat sample_isprintable (env_with (Some "sk-test"))
                     (fun _ => Response 502
                                 (JsonFails "Expecting value: line 1 column 1 (char 0)"))
                     {| messages := [ {| role := "user"; content := "hi" |} ];
                        kb := None |})) =
  (500%Z, JSONBody (PDict [("detail",
                            PStr "Expecting value: line 1 column 1 (char 0)")]))
  /\
  respond (fst (chat sample_isprintable (env_with (Some "sk-test"))
                     (fun _ => Response 401
                                 (JsonValue (PDict [("error", PStr "Unauthorized")])))
                     {| messages := [ {| role := "user"; content := "hi" |} ];
                        kb := None |})) =
  (500%Z, TextBody "Internal Server Error")
  /\
  respond (fst (chat sample_isprintable (env_with (Some "sk-test"))
                     (fun _ => Response 400
                                 (JsonValue (PDict [
                                    ("error", PDict [
                                       ("message",
                                        PStr ("bad " ++ PyStr.utf8_3 237 160 128))])])))
                     {| messages := [ {| role := "user"; content := "hi" |} ];
                        kb := None |})) =
  (500%Z, TextBody "Internal Server Error").
Proof. repeat split; reflexivity. Qed.

(** *** Upstream completions *)




(** C9.  For an upstream response with status below 400 in which
    [choices[0].message.content] is there but falsy (the empty string,
    null), the reply has status 200 and the fallback answer. *)
Theorem falsy_content_falls_back
        (isprintable : N -> bool)
        (environ : Environ) (upstream : Upstream) (req : ChatReq)
        (api_key : string) (status_code : Z)
        (d c m : list (string * pyval)) (rest : list pyval) (v : pyval) :
  environ "DEEPSEEK_API_KEY" = Some api_key -> api_key <> "" ->
  upstream (outbound api_key req) = Response status_code (JsonValue (PDict d)) ->
  (status_code < 400)%Z ->
  Py.dict_get d "choices" = Some (PList (PDict c :: rest)) ->
  Py.dict_get c "message" = Some (PDict m) ->
  Py.dict_get m "content" = Some v ->
  Py.truthy v = false ->
  respond (fst (chat isprintable environ upstream req)) =
  (200%Z, JSONBody (PDict [("answer", PStr "Sorry — no response.")])).
Proof.
  intros E Hne Hup Hst Hc Hm Hv Hfalsy.
  rewrite (chat_with_key _ _ _ _ _ E Hne), Hup.
  replace (400 <=? status_code)%Z with false by (symmetry; now apply Z.leb_gt).
  cbn [fst]. unfold success_reply. cbn [Py.get bind]. rewrite Hc.
  unfold Py.or_ at 1. cbn [Py.truthy Py.getitem0 Py.get bind]. rewrite Hm.
  unfold Py.or_ at 1. destruct m as [|item m]; [discriminate|].
  cbn [Py.truthy Py.get bind]. rewrite Hv.
  unfold Py.or_. now rewrite Hfalsy.
Qed.

Lemma falsy_content_falls_back_witness :
  respond (fst (chat sample_isprintable (env_with (Some "sk-test"))
                     (fun _ => Response 200 (JsonValue (PDict [
                        ("choices", PList [PDict [
                           ("message", PDict [("content", PNone)])]])])))
                     {| messages := []; kb := None |})) =
  (200%Z, JSONBody (PDict [("answer", PStr "Sorry — no response.")])).
Proof.
  refine (falsy_content_falls_back
            sample_isprintable
            (env_with (Some "sk-test"))
            (fun _ => Response 200 (JsonValue (PDict [
               ("choices", PList [PDict [
                  ("message", PDict [("content", PNone)])]])])))
            {| messages := []; kb := None |}
            "sk-test" 200
            [("choices", PList [PDict [("message", PDict [("content", PNone)])]])]
            [("message", PDict [("content", PNone)])]
            [("content", PNone)] [] PNone
            _ _ _ _ _ _ _ _).
  - reflexivity.
  - discriminate.
  - reflexivity.
  - lia.
  - reflexivity.
  - reflexivity.
  - reflexivity.
  - reflexivity.
Defined.

(** *** Replies that are no 200 *)

(** C6.  The handler at a response that is no transport failure: status
    200 with the JSON array [[]] as body.  [data.get] raises
    [AttributeError] after the [try] block, and the reply has status 500
    although nothing failed at the transport level. *)
Theorem non_200_without_transport_failure :
  (forall e, ~ transport_failure (Response 200 (JsonValue (PList []))) e) /\
  fst (chat sample_isprintable (env_with (Some "sk-test"))
            (fun _ => Response 200 (JsonValue (PList [])))
            {| messages := [ {| role := "user"; content := "hi" |} ];
               kb := None |}) = Raise AttributeError /\
  respond (fst (chat sample_isprintable (env_with (Some "sk-test"))
                     (fun _ => Response 200 (JsonValue (PList [])))
                     {| messages := [ {| role := "user"; content := "hi" |} ];
                        kb := None |})) =
  (500%Z, TextBody "Internal Server Error").
Proof.
  repeat split.
  intros e [H | [st H]]; discriminate.
Qed.

(** ** The test cases of the specification *)

Example bad_request_is_reported :
  respond (fst (chat sample_isprintable (env_with (Some "sk-test"))
                     (fun _ => Response 400
                                 (JsonValue (PDict [("message", PStr "bad request")])))
                     {| messages := [ {| role := "user"; content := "hi" |} ];
                        kb := Some "facts" |})) =
  (200%Z, JSONBody (PDict [("answer", PStr "DeepSeek API error: bad request")])).
Proof. reflexivity. Qed.

Example unknown_error_body_is_stringified :
  respond (fst (chat sample_isprintable (env_with (Some "sk-test"))
                     (fun _ => Response 500
                                 (JsonValue (PDict [("code", PInt 17);
                                                    ("retry", PBool false)])))
                     {| messages := []; kb := None |})) =
  (200%Z, JSONBody (PDict [
     ("answer", PStr "DeepSeek API error: {'code': 17, 'retry': False}")])).
Proof. reflexivity. Qed.

Example empty_messages_send_empty_user_turn :
  map call_json
      (snd (chat sample_isprintable (env_with (Some "sk-test"))
                 (fun _ => PostFails "timed out")
                 {| messages := []; kb := None |})) =
  [payload "" ""].
Proof. reflexivity. Qed.

Example bearer_token_and_timeout :
  map (fun c => (call_url c, call_headers c, call_timeout c))
      (snd (chat sample_isprintable (env_with (Some "sk-test"))
                 (fun _ => PostFails "timed out")
                 {| messages := []; kb := None |})) =
  [("https://api.deepseek.com/v1/chat/completions",
    [("Authorization", "Bearer sk-test"); ("Content-Type", "application/json")],
    60%Z)].
Proof. reflexivity. Qed.

(** ** More on the knowledge base text (line 50) *)

Module StripFacts.
Import PyStr PyStrFacts.

Lemma lstrip1_no_prefix (toks : list string) (s : string) :
  (forall w r, In w toks -> s <> w ++ r) -> lstrip1 toks s = None.
Proof.
  intros H. destruct (lstrip1 toks s) as [r|] eqn:E; [|reflexivity].
  destruct (lstrip1_Some _ _ _ E) as [w [Hin Hs]].
  now destruct (H w r Hin).
Qed.

Lemma lstrip_with_fixed (toks : list string) (s : string) :
  lstrip1 toks s = None -> lstrip_with toks s = s.
Proof.
  intros H. unfold lstrip_with.
  destruct (String.length s); simpl; [reflexivity | now rewrite H].
Qed.

(** A string with no whitespace at either end is left as it is. *)
Lemma strip_fixed (t : string) :
  (forall w r, In w whitespace -> t <> w ++ r) ->
  (forall w r, In w whitespace -> t <> r ++ w) ->
  strip t = t.
Proof.
  intros Hpre Hsuf. unfold strip, lstrip.
  rewrite (lstrip_with_fixed whitespace t) by now apply lstrip1_no_prefix.
  unfold rstrip. rewrite lstrip_with_fixed; [apply rev_involutive|].
  apply lstrip1_no_prefix. intros w' r Hin H.
  apply in_map_iff in Hin. destruct Hin as [w [<- Hin]].
  apply (Hsuf w (rev r) Hin).
  rewrite <- (rev_involutive t), H, rev_app. now rewrite rev_involutive.
Qed.

Lemma strip_idempotent (s : string) : strip (strip s) = strip s.
Proof.
  destruct (strip_trimmed s) as [pre [post [_ [_ [_ [Hpre Hsuf]]]]]].
  now apply strip_fixed.
Qed.

(** Every whitespace character at the head of a string is found by one
    step of the loop. *)
Lemma lstrip1_whitespace (w s : string) :
  In w whitespace -> lstrip1 whitespace (w ++ s) = Some s.
Proof.
  intros Hin. unfold whitespace in Hin. simpl in Hin.
  repeat (destruct Hin as [<-|Hin]; [reflexivity|]).
  contradiction.
Qed.

Lemma lstrip_loop_all_space (s : string) :
  all_space s ->
  forall n, (String.length s <= n)%nat -> lstrip_loop whitespace n s = "".
Proof.
  induction 1 as [|w s Hin Hs IH]; intros n Hlen.
  - destruct n; reflexivity.
  - rewrite length_app in Hlen.
    assert (Hw : w <> "") by now apply whitespace_nonempty.
    destruct w as [|c w]; [congruence|]. simpl in Hlen.
    destruct n as [|n]; [lia|].
    cbn [lstrip_loop]. rewrite (lstrip1_whitespace _ s Hin).
    apply IH. lia.
Qed.

(** A string of whitespace characters only strips to the empty string. *)
Lemma strip_all_space (s : string) : all_space s -> strip s = "".
Proof.
  intros H. unfold strip, lstrip, lstrip_with.
  now rewrite (lstrip_loop_all_space s H _ (le_n _)).
Qed.

End StripFacts.

(** ** What reaches the upstream server (lines 41-106) *)

Lemma chat_ext (isprintable : N -> bool)
      (environ : Environ) (upstream : Upstream) (r1 r2 : ChatReq) :
  (forall api_key, outbound api_key r1 = outbound api_key r2) ->
  chat isprintable environ upstream r1 = chat isprintable environ upstream r2.
Proof.
  intros H. unfold chat.
  destruct (environ "DEEPSEEK_API_KEY") as [api_key|]; [|reflexivity].
  destruct (String.eqb api_key ""); [reflexivity|].
  now rewrite H.
Qed.

(** X1.  The handler calls the upstream server at most once.  With a
    non-empty key it makes exactly one call, whatever the upstream does:
    to the completions URL, with the key as bearer token, a JSON content
    type and a timeout of 60; with no key or an empty key it makes none. *)
Theorem chat_calls_upstream_once
        (isprintable : N -> bool)
        (environ : Environ) (upstream : Upstream) (req : ChatReq) :
  (exists api_key,
      environ "DEEPSEEK_API_KEY" = Some api_key /\ api_key <> "" /\
      snd (chat isprintable environ upstream req) =
      [ {| call_url := "https://api.deepseek.com/v1/chat/completions";
           call_headers := [("Authorization", "Bearer " ++ api_key);
                            ("Content-Type", "application/json")];
           call_json := payload (kb_text (kb req)) (last_user (messages req));
           call_timeout := 60 |} ])
  \/
  ((environ "DEEPSEEK_API_KEY" = None \/ environ "DEEPSEEK_API_KEY" = Some "")
   /\ snd (chat isprintable environ upstream req) = []).
Proof.
  destruct (environ "DEEPSEEK_API_KEY") as [api_key|] eqn:E.
  - destruct (String.string_dec api_key "") as [->|Hne].
    + right. rewrite (chat_no_key _ _ _ _ (or_intror E)). auto.
    + left. exists api_key. rewrite (chat_with_key _ _ _ _ _ E Hne). auto.
  - right. rewrite (chat_no_key _ _ _ _ (or_introl E)). auto.
Qed.

(** X2.  Only the last user message and the stripped knowledge base of a
    request matter: the handler does on any request what it does on the
    request that holds that one user message and that stripped text.
    Earlier turns and turns of other roles are never sent. *)
Theorem chat_normal_form
        (isprintable : N -> bool)
        (environ : Environ) (upstream : Upstream) (req : ChatReq) :
  chat isprintable environ upstream req =
  chat isprintable environ upstream
       {| messages := [ {| role := "user";
                           content := last_user (messages req) |} ];
          kb := Some (kb_text (kb req)) |}.
Proof.
  apply chat_ext. intros api_key. unfold outbound, kb_text. cbn [messages kb].
  rewrite StripFacts.strip_idempotent. reflexivity.
Qed.

(** X3.  A knowledge base that holds whitespace only is the same as none:
    the handler does the same with it as with an absent [kb], and the text
    sent is empty. *)
Theorem whitespace_kb_is_no_kb
        (isprintable : N -> bool)
        (environ : Environ) (upstream : Upstream) (ms : list Msg) (s : string) :
  all_space s ->
  kb_text (Some s) = "" /\
  chat isprintable environ upstream {| messages := ms; kb := Some s |} =
  chat isprintable environ upstream {| messages := ms; kb := None |}.
Proof.
  intros Hs.
  assert (E : kb_text (Some s) = "") by now apply StripFacts.strip_all_space.
  split; [exact E|].
  apply chat_ext. intros api_key. unfold outbound. cbn [messages kb].
  now rewrite E.
Qed.

Lemma whitespace_kb_is_no_kb_witness :
  kb_text (Some (" " ++ PyStr.nl)) = "" /\
  chat sample_isprintable (env_with (Some "sk-test")) (fun _ => PostFails "timed out")
       {| messages := []; kb := Some (" " ++ PyStr.nl) |} =
  chat sample_isprintable (env_with (Some "sk-test")) (fun _ => PostFails "timed out")
       {| messages := []; kb := None |}.
Proof.
  refine (whitespace_kb_is_no_kb sample_isprintable (env_with (Some "sk-test"))
            (fun _ => PostFails "timed out") [] (" " ++ PyStr.nl) _).
  apply (made_of_cons PyStr.whitespace " " PyStr.nl).
  - simpl. tauto.
  - apply (made_of_cons PyStr.whitespace PyStr.nl "").
    + simpl. tauto.
    + constructor.
Defined.

(** ** More on the last user message (lines 44-48) *)

(** X4.  Adding a turn at the end of a conversation: a user turn becomes
    the last user message, a turn of any other role changes nothing. *)
Theorem last_user_snoc (ms : list Msg) (m : Msg) :
  last_user (ms ++ [m])%list =
  if String.eqb (role m) "user" then content m else last_user ms.
Proof.
  unfold last_user. now rewrite rev_app_distr.
Qed.

Lemma first_user_filter (l : list Msg) :
  first_user l =
  hd "" (map content (filter (fun m => String.eqb (role m) "user") l)).
Proof.
  induction l as [|m l IH]; simpl; [reflexivity|].
  now destruct (String.eqb (role m) "user").
Qed.

Lemma hd_rev_last (A : Type) (l : list A) (d : A) : hd d (rev l) = last l d.
Proof.
  induction l as [|x l IH] using rev_ind; [reflexivity|].
  now rewrite rev_app_distr, last_last.
Qed.

(** X5.  [last_user] in closed form: the content of the last element of
    the sub-list of user messages, the empty string when that is empty. *)
Theorem last_user_closed_form (ms : list Msg) :
  last_user ms =
  last (map content (filter (fun m => String.eqb (role m) "user") ms)) "".
Proof.
  unfold last_user. rewrite first_user_filter.
  rewrite filter_rev, map_rev. apply hd_rev_last.
Qed.

(** ** More on the reply (lines 104-124) *)

(** Outside the expected shape the error branch raises [AttributeError]:
    the body is no object, or its [error] is truthy and no object. *)
Lemma error_message_bad_shape (isprintable : N -> bool) (data : pyval) :
  error_shape data = false -> error_message isprintable data = Raise AttributeError.
Proof.
  unfold error_shape, error_message.
  destruct data as [| b | z | nz t | s0 | l | d]; try reflexivity.
  cbn [is_dict andb Py.get bind]. fold (field (PDict d) "error").
  unfold object_or_falsy, Py.or_. intros H.
  apply orb_false_iff in H. destruct H as [Hd Ht].
  apply negb_false_iff in Ht. rewrite Ht.
  destruct (field (PDict d) "error"); try reflexivity. discriminate.
Qed.

Lemma success_reply_bad_shape (data : pyval) :
  success_shape data = false ->
  success_reply data =
  Raise (match field data "choices" with
         | PDict _ => KeyError
         | PBool _ | PInt _ | PFloat _ _ => TypeError
         | _ => AttributeError
         end).
Proof.
  unfold success_shape, success_reply.
  destruct data as [| b | z | nz t | s0 | l | d]; try reflexivity.
  cbn [is_dict andb Py.get bind]. fold (field (PDict d) "choices").
  destruct (field (PDict d) "choices") as [| b | z | nz t | s0 | l | d0];
    cbn [Py.truthy negb orb]; unfold Py.or_; cbn [Py.truthy].
  - discriminate.
  - rewrite orb_false_r. intros H. apply negb_false_iff in H. now rewrite H.
  - rewrite orb_false_r. intros H. apply negb_false_iff in H. now rewrite H.
  - rewrite orb_false_r. intros H. apply negb_false_iff in H. now rewrite H.
  - rewrite orb_false_r. intros H. apply negb_false_iff in H. rewrite H.
    cbn [Py.getitem0]. apply negb_true_iff in H. now rewrite H.
  - destruct l as [|x l]; [discriminate|].
    cbn [negb orb Py.getitem0 bind]. intros H.
    destruct x as [| b | z | nz t | s0 | l0 | dx]; try reflexivity.
    cbn [is_dict andb Py.get bind] in *. fold (field (PDict dx) "message").
    unfold object_or_falsy in H. apply orb_false_iff in H. destruct H as [Hd Ht].
    apply negb_false_iff in Ht. rewrite Ht.
    destruct (field (PDict dx) "message"); try reflexivity. discriminate.
  - destruct d0; [discriminate|]. reflexivity.
Qed.

Lemma api_key_cases (environ : Environ) :
  (exists api_key, environ "DEEPSEEK_API_KEY" = Some api_key /\ api_key <> "")
  \/ (environ "DEEPSEEK_API_KEY" = None \/ environ "DEEPSEEK_API_KEY" = Some "").
Proof.
  destruct (environ "DEEPSEEK_API_KEY") as [api_key|]; [|now right; left].
  destruct (String.string_dec api_key "") as [->|Hne].
  - right. now right.
  - left. now exists api_key.
Qed.

(** X6.  The upstream status is never passed on: whatever the environment,
    the upstream and the request, the reply has status 200 or 500. *)
Theorem chat_status_200_or_500
        (isprintable : N -> bool)
        (environ : Environ) (upstream : Upstream) (req : ChatReq) :
  status_of (fst (chat isprintable environ upstream req)) = 200%Z \/
  status_of (fst (chat isprintable environ upstream req)) = 500%Z.
Proof.
  destruct (api_key_cases environ) as [[k [E Hne]]|E].
  2:{ left. now rewrite (chat_no_key _ _ _ _ E). }
  rewrite (chat_with_key _ _ _ _ _ E Hne). cbn [fst].
  assert (Hexn : forall e,
             status_of (Raise (HTTPException 500 e)) = 500%Z).
  { intros e. unfold status_of, respond. now destruct (PyStr.encodable e). }
  destruct (upstream (outbound k req)) as [e|st [data|e]]; try (now right).
  destruct (body_shape st data) eqn:Hs.
  - destruct (body_shape_returns isprintable _ _ Hs) as [v ->].
    unfold status_of, respond. destruct (serialisable v); auto.
  - right. unfold body_shape in Hs. destruct (400 <=? st)%Z.
    + unfold error_reply. now rewrite (error_message_bad_shape _ _ Hs).
    + rewrite (success_reply_bad_shape _ Hs).
      now destruct (field data "choices").
Qed.

(** X7.  Whenever the handler returns, it returns an object with the one
    field [answer], and the answer is never null nor an empty text. *)
Theorem chat_answer_never_empty
        (isprintable : N -> bool)
        (environ : Environ) (upstream : Upstream) (req : ChatReq) (v : pyval) :
  fst (chat isprintable environ upstream req) = Ok v ->
  exists a, v = PDict [("answer", a)] /\ Py.truthy a = true /\ a <> PNone /\
            a <> PStr "".
Proof.
  assert (Htruthy : forall a, Py.truthy a = true -> a <> PNone /\ a <> PStr "").
  { intros a Ha. split; intros ->; discriminate. }
  intros H.
  assert (Hgoal : exists a, v = PDict [("answer", a)] /\ Py.truthy a = true).
  2:{ destruct Hgoal as [a [Hv Ha]]. exists a.
      destruct (Htruthy a Ha). auto. }
  clear Htruthy.
  destruct (api_key_cases environ) as [[k [E Hne]]|E].
  2:{ rewrite (chat_no_key _ _ _ _ E) in H. injection H as <-. now eexists. }
  rewrite (chat_with_key _ _ _ _ _ E Hne) in H. cbn [fst] in H.
  destruct (upstream (outbound k req)) as [e|st [data|e]]; try discriminate.
  destruct (400 <=? st)%Z.
  - destruct (error_shape data) eqn:Hs.
    + rewrite (error_reply_shape _ _ Hs) in H. injection H as <-.
      eexists. split; [reflexivity|].
      now destruct (PyStr.contains _ _).
    + unfold error_reply in H.
      rewrite (error_message_bad_shape _ _ Hs) in H. discriminate.
  - destruct (success_shape data) eqn:Hs.
    + rewrite (success_reply_shape _ Hs) in H. injection H as <-.
      eexists. split; [reflexivity|]. unfold Py.or_.
      now destruct (Py.truthy (first_content data)) eqn:T.
    + rewrite (success_reply_bad_shape _ Hs) in H. discriminate.
Qed.

Lemma chat_answer_never_empty_witness :
  exists a,
    PDict [("answer", PStr "Sorry — no response.")] = PDict [("answer", a)] /\
    Py.truthy a = true /\ a <> PNone /\ a <> PStr "".
Proof.
  refine (chat_answer_never_empty
            sample_isprintable
            (env_with (Some "sk-test"))
            (fun _ => Response 200 (JsonValue (PDict [
               ("choices", PList [PDict [
                  ("message", PDict [("content", PStr "")])]])])))
            {| messages := []; kb := None |}
            (PDict [("answer", PStr "Sorry — no response.")]) _).
  reflexivity.
Defined.

(** X8.  An upstream response with status 400 or more whose parsed body is
    no object, or whose [error] is truthy and no object, makes the handler
    raise [AttributeError]; the reply is a plain 500 with no detail. *)
Theorem error_body_bad_shape_raises
        (isprintable : N -> bool)
        (environ : Environ) (upstream : Upstream) (req : ChatReq)
        (api_key : string) (status_code : Z) (data : pyval) :
  environ "DEEPSEEK_API_KEY" = Some api_key -> api_key <> "" ->
  upstream (outbound api_key req) = Response status_code (JsonValue data) ->
  (400 <= status_code)%Z ->
  error_shape data = false ->
  fst (chat isprintable environ upstream req) = Raise AttributeError /\
  respond (fst (chat isprintable environ upstream req)) =
  (500%Z, TextBody "Internal Server Error").
Proof.
  intros E Hne Hup Hst Hs.
  rewrite (chat_with_key _ _ _ _ _ E Hne), Hup.
  replace (400 <=? status_code)%Z with true by (symmetry; now apply Z.leb_le).
  cbn [fst]. unfold error_reply. rewrite (error_message_bad_shape _ _ Hs).
  split; reflexivity.
Qed.

Lemma error_body_bad_shape_raises_witness :
  fst (chat sample_isprintable (env_with (Some "sk-test"))
            (fun _ => Response 429 (JsonValue (PStr "Too Many Requests")))
            {| messages := []; kb := None |}) = Raise AttributeError.
Proof.
  refine (proj1 (error_body_bad_shape_raises
                   sample_isprintable
                   (env_with (Some "sk-test"))
                   (fun _ => Response 429 (JsonValue (PStr "Too Many Requests")))
                   {| messages := []; kb := None |}
                   "sk-test" 429 (PStr "Too Many Requests") _ _ _ _ _)).
  - reflexivity.
  - discriminate.
  - reflexivity.
  - lia.
  - reflexivity.
Defined.

(** X9.  An upstream response with status below 400 whose parsed body has
    not the expected shape makes the handler raise: [KeyError] when
    [choices] is a non-empty object, [TypeError] when it is a truthy
    number or boolean, [AttributeError] in every other case (the body is
    no object, [choices] is a text, the first choice is no object, or its
    [message] is truthy and no object).  The reply is a plain 500. *)
Theorem completion_bad_shape_raises
        (isprintable : N -> bool)
        (environ : Environ) (upstream : Upstream) (req : ChatReq)
        (api_key : string) (status_code : Z) (data : pyval) :
  environ "DEEPSEEK_API_KEY" = Some api_key -> api_key <> "" ->
  upstream (outbound api_key req) = Response status_code (JsonValue data) ->
  (status_code < 400)%Z ->
  success_shape data = false ->
  fst (chat isprintable environ upstream req) =
  Raise (match field data "choices" with
         | PDict _ => KeyError
         | PBool _ | PInt _ | PFloat _ _ => TypeError
         | _ => AttributeError
         end) /\
  respond (fst (chat isprintable environ upstream req)) =
  (500%Z, TextBody "Internal Server Error").
Proof.
  intros E Hne Hup Hst Hs.
  rewrite (chat_with_key _ _ _ _ _ E Hne), Hup.
  replace (400 <=? status_code)%Z with false by (symmetry; now apply Z.leb_gt).
  cbn [fst]. rewrite (success_reply_bad_shape _ Hs).
  split; [reflexivity|].
  now destruct (field data "choices").
Qed.

Lemma completion_bad_shape_raises_witness :
  fst (chat sample_isprintable (env_with (Some "sk-test"))
            (fun _ => Response 200 (JsonValue (PDict [
               ("choices", PDict [("index", PInt 0)])])))
            {| messages := []; kb := None |}) = Raise KeyError.
Proof.
  refine (proj1 (completion_bad_shape_raises
                   sample_isprintable
                   (env_with (Some "sk-test"))
                   (fun _ => Response 200 (JsonValue (PDict [
                      ("choices", PDict [("index", PInt 0)])])))
                   {| messages := []; kb := None |}
                   "sk-test" 200
                   (PDict [("choices", PDict [("index", PInt 0)])])
                   _ _ _ _ _)).
  - reflexivity.
  - discriminate.
  - reflexivity.
  - lia.
  - reflexivity.
Defined.

(** X10.  The message taken from an error body is never falsy: when
    neither [error.message] nor [message] is truthy the stringified body
    stands in, and that text is not empty. *)
Theorem error_message_truthy (isprintable : N -> bool) (data m : pyval) :
  error_message isprintable data = Ok m -> Py.truthy m = true.
Proof.
  intros H. destruct (error_shape data) eqn:Hs.
  2:{ rewrite (error_message_bad_shape _ _ Hs) in H. discriminate. }
  rewrite (error_message_shape _ _ Hs) in H. injection H as <-.
  unfold extracted_message.
  destruct (Py.truthy (field (field data "error") "message")) eqn:T1; [exact T1|].
  destruct (Py.truthy (field data "message")) eqn:T2; [exact T2|].
  unfold error_shape in Hs. apply andb_true_iff in Hs. destruct Hs as [Hd _].
  destruct (is_dict_inv _ Hd) as [d ->]. reflexivity.
Qed.

Lemma error_message_truthy_witness :
  Py.truthy (PStr "{}") = true.
Proof.
  refine (error_message_truthy sample_isprintable (PDict []) (PStr "{}") _).
  reflexivity.
Defined.

(** X11.  On a response with status below 400 the [error] and [message]
    fields are not read: a body that is an object whose [choices] is
    missing or falsy, an error object for instance, is answered with
    status 200 and the fallback text. *)
Theorem completion_without_choices
        (isprintable : N -> bool)
        (environ : Environ) (upstream : Upstream) (req : ChatReq)
        (api_key : string) (status_code : Z) (d : list (string * pyval)) :
  environ "DEEPSEEK_API_KEY" = Some api_key -> api_key <> "" ->
  upstream (outbound api_key req) = Response status_code (JsonValue (PDict d)) ->
  (status_code < 400)%Z ->
  Py.truthy (field (PDict d) "choices") = false ->
  respond (fst (chat isprintable environ upstream req)) =
  (200%Z, JSONBody (PDict [("answer", PStr "Sorry — no response.")])).
Proof.
  intros E Hne Hup Hst Hc.
  rewrite (chat_with_key _ _ _ _ _ E Hne), Hup.
  replace (400 <=? status_code)%Z with false by (symmetry; now apply Z.leb_gt).
  cbn [fst].
  assert (Hs : success_shape (PDict d) = true).
  { unfold success_shape. now rewrite Hc. }
  rewrite (success_reply_shape _ Hs).
  unfold first_content, first_choice.
  destruct (field (PDict d) "choices") as [| b | z | nz t | s0 | l | d0];
    try reflexivity.
  destruct l; [reflexivity | discriminate].
Qed.

Lemma completion_without_choices_witness :
  respond (fst (chat sample_isprintable (env_with (Some "sk-test"))
                     (fun _ => Response 200 (JsonValue (PDict [
                        ("error", PDict [("message", PStr "Insufficient Balance")])])))
                     {| messages := []; kb := None |})) =
  (200%Z, JSONBody (PDict [("answer", PStr "Sorry — no response.")])).
Proof.
  refine (completion_without_choices
            sample_isprintable
            (env_with (Some "sk-test"))
            (fun _ => Response 200 (JsonValue (PDict [
               ("error", PDict [("message", PStr "Insufficient Balance")])])))
            {| messages := []; kb := None |}
            "sk-test" 200
            [("error", PDict [("message", PStr "Insufficient Balance")])]
            _ _ _ _ _).
  - reflexivity.
  - discriminate.
  - reflexivity.
  - lia.
  - reflexivity.
Defined.

(** X12.  When the upstream call fails at the transport level (the post
    raises, or the body of the response is no JSON) the handler raises an
    [HTTPException] with status 500 and the exception's text as detail;
    the reply has status 500, and carries the detail whenever the text has
    no lone surrogate. *)
Theorem transport_failure_gives_500
        (isprintable : N -> bool)
        (environ : Environ) (upstream : Upstream) (req : ChatReq)
        (api_key e : string) :
  environ "DEEPSEEK_API_KEY" = Some api_key -> api_key <> "" ->
  transport_failure (upstream (outbound api_key req)) e ->
  fst (chat isprintable environ upstream req) = Raise (HTTPException 500 e) /\
  status_of (fst (chat isprintable environ upstream req)) = 500%Z /\
  (PyStr.encodable e = true ->
   respond (fst (chat isprintable environ upstream req)) =
   (500%Z, JSONBody (PDict [("detail", PStr e)]))).
Proof.
  intros E Hne Hfail.
  rewrite (chat_with_key _ _ _ _ _ E Hne).
  assert (H : fst (match upstream (outbound api_key req) with
                   | PostFails e0 => Raise (HTTPException 500 e0)
                   | Response _ (JsonFails e0) => Raise (HTTPException 500 e0)
                   | Response status_code (JsonValue data) =>
                       if (400 <=? status_code)%Z
                       then error_reply isprintable data
                       else success_reply data
                   end, [outbound api_key req]) = Raise (HTTPException 500 e)).
  { destruct Hfail as [-> | [st ->]]; reflexivity. }
  rewrite H. unfold status_of, respond.
  destruct (PyStr.encodable e); repeat split; discriminate.
Qed.

Lemma transport_failure_gives_500_witness :
  respond (fst (chat sample_isprintable (env_with (Some "sk-test"))
                     (fun _ => PostFails "All connection attempts failed")
                     {| messages := []; kb := None |})) =
  (500%Z, JSONBody (PDict [("detail", PStr "All connection attempts failed")])).
Proof.
  refine (proj2 (proj2 (transport_failure_gives_500
                          sample_isprintable
                          (env_with (Some "sk-test"))
                          (fun _ => PostFails "All connection attempts failed")
                          {| messages := []; kb := None |}
                          "sk-test" "All connection attempts failed" _ _ _)) _).
  - reflexivity.
  - discriminate.
  - now left.
  - reflexivity.
Defined.

(** X13.  A reply with a status other than 200 has one of three causes: a
    transport failure of the upstream call, a parsed body that has not the
    expected shape, or a returned answer that cannot be written as JSON. *)
Theorem non_200_has_a_cause
        (isprintable : N -> bool)
        (environ : Environ) (upstream : Upstream) (req : ChatReq) :
  status_of (fst (chat isprintable environ upstream req)) <> 200%Z ->
  exists api_key,
    environ "DEEPSEEK_API_KEY" = Some api_key /\ api_key <> "" /\
    ((exists e, transport_failure (upstream (outbound api_key req)) e)
     \/
     (exists status_code data,
         upstream (outbound api_key req) = Response status_code (JsonValue data) /\
         (body_shape status_code data = false \/
          exists v, fst (chat isprintable environ upstream req) = Ok v /\
                    serialisable v = false))).
Proof.
  intros Hstatus.
  destruct (api_key_cases environ) as [[k [E Hne]]|E].
  2:{ rewrite (chat_no_key _ _ _ _ E) in Hstatus. now destruct Hstatus. }
  exists k. repeat split; auto.
  rewrite (chat_with_key _ _ _ _ _ E Hne) in *. cbn [fst] in *.
  destruct (upstream (outbound k req)) as [e|st [data|e]] eqn:Hup.
  - left. exists e. now left.
  - right. exists st, data. split; [reflexivity|].
    destruct (body_shape st data) eqn:Hshape; [right | now left].
    destruct (body_shape_returns isprintable _ _ Hshape) as [v Hv].
    rewrite Hv in *. exists v. split; [reflexivity|].
    unfold status_of, respond in Hstatus.
    destruct (serialisable v); [now destruct Hstatus | reflexivity].
  - left. exists e. right. now exists st.
Qed.

Lemma non_200_has_a_cause_witness :
  exists api_key,
    env_with (Some "sk-test") "DEEPSEEK_API_KEY" = Some api_key /\
    api_key <> "" /\
    ((exists e,
         transport_failure
           (Response 200 (JsonValue (PDict [
              ("choices", PList [PDict [
                 ("message", PDict [("content", PFloat true "nan")])]])])))
           e)
     \/
     (exists status_code data,
         Response 200 (JsonValue (PDict [
            ("choices", PList [PDict [
               ("message", PDict [("content", PFloat true "nan")])]])]))
         = Response status_code (JsonValue data) /\
         (body_shape status_code data = false \/
          exists v,
            fst (chat sample_isprintable (env_with (Some "sk-test"))
                      (fun _ => Response 200 (JsonValue (PDict [
                         ("choices", PList [PDict [
                            ("message",
                             PDict [("content", PFloat true "nan")])]])])))
                      {| messages := []; kb := None |}) = Ok v /\
            serialisable v = false))).
Proof.
  refine (non_200_has_a_cause
            sample_isprintable
            (env_with (Some "sk-test"))
            (fun _ => Response 200 (JsonValue (PDict [
               ("choices", PList [PDict [
                  ("message", PDict [("content", PFloat true "nan")])]])])))
            {| messages := []; kb := None |} _).
  discriminate.
Defined.
